(** * Tabular-RL-agent: the Q-table of [src/agent/base_agent.py]

    A shallow embedding of the classes [Agent] and [RandomAgent]:
    the nested [defaultdict] that holds the q values, its persistence through
    [np.save] / [np.load], and the random policy built on top of it.

    Conventions of the embedding.
    - Python methods mutate [self] and may raise.  They are written in a
      state-and-exception monad [M] over a [world] (the agent object and the
      disk); an exception carries the world as it is at the raise point, so
      that what a failed call leaves behind can be stated.
    - Numbers stored in the table are exact rationals ([Qc]): Python's [0] and
      [0.0] are the same value, and floating-point rounding is not modelled.
      The table only stores and returns numbers; the one place that computes
      with them is the quotient of [RandomAgent.get_value].
    - A [str] is the list of its code points; a file name is a byte string.
    - [np.random.choice] is not modelled as a generator: the index it draws is
      an argument of [get_action]. *)

From Stdlib Require Import QArith Qcanon.
From stdpp Require Import base option list list_monad strings gmap fin_maps numbers countable.

Local Open Scope Z_scope.

(** ** Python values used as keys *)
Module Py.

(** A Python [str]: the sequence of its code points. *)
Abbreviation pystr := (list N).

(** The elements of a state or an action: hashable primitives. *)
Inductive prim :=
| PInt (z : Z)
| PStr (s : pystr).

#[global] Instance prim_eq_dec : EqDecision prim.
Proof. solve_decision. Defined.

#[global] Instance prim_countable : Countable prim.
Proof.
  refine (inj_countable'
            (λ p, match p with PInt z => inl z | PStr s => inr s end)
            (λ x, match x with inl z => PInt z | inr s => PStr s end) _).
  by intros [].
Defined.

(** What a caller passes as [state] or [action]: any sequence. *)
Inductive pyseq :=
| PyList (l : list prim)
| PyTuple (l : list prim)
| PyString (s : pystr).

(** A Python tuple of primitives, the key type of both dict levels. *)
Abbreviation key := (list prim).

(** The characters of a [str], each a [str] of one code point. *)
Fixpoint chars (s : pystr) : list prim :=
  match s with
  | [] => []
  | c :: s' => PStr [c] :: chars s'
  end.

(** [list(x)]: the elements of [x] in order. *)
Definition py_list (x : pyseq) : list prim :=
  match x with
  | PyList l => l
  | PyTuple l => l
  | PyString s => chars s
  end.

(** [tuple(l)]. *)
Definition py_tuple (l : list prim) : key := l.

(** The element sequence of [x], whatever its container. *)
Definition elements_of (x : pyseq) : list prim := py_list x.

Inductive exn :=
| NotImplementedError
| FileNotFoundError
| UnpicklingError
| AttributeError
| TypeError
| IndexError.

#[global] Instance exn_eq_dec : EqDecision exn.
Proof. solve_decision. Defined.

(** [d[k]] on a [defaultdict(factory)]: a missing key is first inserted with
    the factory's value ([__missing__]), then returned. *)
Definition defaultdict_getitem `{Countable K} {V} (factory : V)
    (d : gmap K V) (k : K) : V * gmap K V :=
  match d !! k with
  | Some v => (v, d)
  | None => (factory, <[k := factory]> d)
  end.

End Py.
Export Py.

(** ** What [np.save] and [np.load] do with the model file *)
Module Numpy.

(** The numbers of the table. *)
Abbreviation value := Qc.

(** The object stored under a state key of a pickled dictionary, by what
    [dict.update] makes of it: another dictionary, an iterable of key/value
    pairs, or something that is neither (a number). *)
Inductive inner_obj :=
| IDict (d : gmap key value)
| IPairs (l : list (key * value))
| IScalar (v : value).

(** The object [np.load(filename, allow_pickle=True).item()] evaluates to. *)
Inductive pyobj :=
| ODict (d : gmap key inner_obj)
| OScalar (v : value).

(** A file: bytes that do not unpickle, or a zero-dimensional object array
    holding one pickled object (what [np.save] writes for a dictionary). *)
Inductive npy_file :=
| Garbage
| Pickled (o : pyobj).

Abbreviation disk := (gmap string npy_file).

(** [s.endswith(suffix)]. *)
Fixpoint endswith (s suffix : string) : bool :=
  if String.eqb s suffix then true
  else match s with
       | EmptyString => false
       | String _ s' => endswith s' suffix
       end.

(** [np.save] appends the extension when the name does not have it.  A
    file name is the byte string of the path. *)
Definition npy_name (filename : string) : string :=
  if endswith filename ".npy" then filename else filename +:+ ".npy".

(** [np.save(filename, obj)], on a disk that takes every write: the
    directory of the name exists and can be written to.  The [OSError] of a
    path that cannot be opened is outside the model. *)
Definition np_save (filename : string) (obj : pyobj) (d : disk) : disk :=
  <[npy_name filename := Pickled obj]> d.

(** [np.load(filename, allow_pickle=True).item()]: the name is used as it is. *)
Definition np_load_item (filename : string) (d : disk) : exn + pyobj :=
  match d !! filename with
  | None => inl FileNotFoundError
  | Some Garbage => inl UnpicklingError
  | Some (Pickled o) => inr o
  end.

End Numpy.
Export Numpy.

(** ** class Agent *)
Module Agent.

(** The fields of an agent object. *)
Record t := {
  _qvalues : gmap key (gmap key value);
  _learn : bool
}.

(** What a method can read and write: its agent and the disk. *)
Record world := {
  self : t;
  files : disk
}.

Inductive outcome (A : Type) :=
| Return (a : A) (w : world)
| Raise (e : exn) (w : world).
Arguments Return {A} a w.
Arguments Raise {A} e w.

Definition M (A : Type) : Type := world → outcome A.

#[global] Instance M_ret : MRet M := λ A a w, Return a w.

#[global] Instance M_bind : MBind M := λ A B f m w,
  match m w with
  | Return a w' => f a w'
  | Raise e w' => Raise e w'
  end.

Definition raise {A} (e : exn) : M A := λ w, Raise e w.

Definition get_qvalues : M (gmap key (gmap key value)) :=
  λ w, Return (_qvalues (self w)) w.

Definition put_qvalues (q : gmap key (gmap key value)) : M unit :=
  λ w, Return tt {| self := {| _qvalues := q; _learn := _learn (self w) |};
                    files := files w |}.

Definition put_learn (b : bool) : M unit :=
  λ w, Return tt {| self := {| _qvalues := _qvalues (self w); _learn := b |};
                    files := files w |}.

Definition get_files : M disk := λ w, Return (files w) w.

Definition put_files (d : disk) : M unit :=
  λ w, Return tt {| self := self w; files := d |}.

(** The world a call leaves behind, whether it returned or raised. *)
Definition world_of {A} (o : outcome A) : world :=
  match o with
  | Return _ w => w
  | Raise _ w => w
  end.

Definition result_of {A} (o : outcome A) : exn + A :=
  match o with
  | Return a _ => inr a
  | Raise e _ => inl e
  end.


(** [Agent()]: line 15 and 16. *)
Definition __init__ : t := {| _qvalues := ∅; _learn := true |}.

(** [res = defaultdict(lambda: 0); res.update(dictionary)].  [dict.update]
    takes a mapping or an iterable of key/value pairs (a later pair wins) and
    raises [TypeError] on anything else. *)
Definition _dict_to_defaultdict (dictionary : inner_obj) : M (gmap key value) :=
  let res : gmap key value := ∅ in
  match dictionary with
  | IDict d => mret (d ∪ res)
  | IPairs l => mret (foldl (λ acc kv, <[kv.1 := kv.2]> acc) res l)
  | IScalar _ => raise TypeError
  end.

Definition learning_mode_on : M unit := put_learn true.

Definition learning_mode_off : M unit := put_learn false.

(** [self._qvalues[state][action]]: both levels are [defaultdict]s, so the
    read stores what it did not find.  The inner dictionary is the object
    held by the outer one, hence the write back under [state]. *)
Definition get_qvalue (state action : pyseq) : M value :=
  let state := py_tuple (py_list state) in
  let action := py_tuple (py_list action) in
  qvalues ← get_qvalues;
  let '(inner, qvalues) := defaultdict_getitem ∅ qvalues state in
  let '(v, inner) := defaultdict_getitem 0%Qc inner action in
  put_qvalues (<[state := inner]> qvalues);;
  mret v.

(** [self._qvalues[state][action] = value]. *)
Definition set_qvalue (state action : pyseq) (v : value) : M unit :=
  let state := py_tuple (py_list state) in
  let action := py_tuple (py_list action) in
  qvalues ← get_qvalues;
  let '(inner, qvalues) := defaultdict_getitem ∅ qvalues state in
  put_qvalues (<[state := <[action := v]> inner]> qvalues).

Definition get_value (state : pyseq) : M value := raise NotImplementedError.

Definition update (state action : pyseq) (reward : value) (next_state : pyseq)
  : M unit := raise NotImplementedError.

(** Lines 81 to 86: every entry of both levels is copied into plain
    dictionaries, and the result is handed to [np.save]. *)
Definition save_model (filename : string) : M unit :=
  qvalues ← get_qvalues;
  let dictionary_q : gmap key inner_obj := (λ val, IDict val) <$> qvalues in
  d ← get_files;
  put_files (np_save filename (ODict dictionary_q) d).

(** [dict_q.items()]. *)
Definition py_items (o : pyobj) : M (list (key * inner_obj)) :=
  match o with
  | ODict d => mret (map_to_list d)
  | OScalar _ => raise AttributeError
  end.

(** Lines 96 to 105. *)
Definition load_model (filename : string) : M unit :=
  d ← get_files;
  dict_q ← match np_load_item filename d with
            | inl e => raise e
            | inr o => mret o
            end;
  items ← py_items dict_q;
  dict_q ← mapM (λ kv, res ← _dict_to_defaultdict kv.2; mret (kv.1, res)) items;
  let dict_q : gmap key (gmap key value) := list_to_map dict_q in
  put_qvalues ∅;;
  qvalues ← get_qvalues;
  put_qvalues (dict_q ∪ qvalues).

End Agent.

(** ** class RandomAgent(Agent) *)
Module RandomAgent.
Import Agent.

(** [np.sum] of a list of numbers, as the exact sum: the result of numpy
    where its int64 or float64 additions neither round nor overflow. *)
Definition np_sum (l : list value) : value := foldl Qcplus 0%Qc l.

(** Lines 127 to 136.  The quotient is exact as well; the code divides in
    float64. *)
Definition get_value (state : pyseq) (possible_actions : list pyseq) : M value :=
  let actions := possible_actions in
  q_val ← mapM (λ action, get_qvalue state action) actions;
  if decide (length q_val = 0%nat) then mret 0%Qc
  else mret (np_sum q_val / Qc_of_Z (Z.of_nat (length q_val)))%Qc.

(** [idx_choice] is the index [np.random.choice(range(len(actions)))] drew.
    [None] is Python's [None]. *)
Definition get_action {A} (possible_actions : list A) (idx_choice : nat)
  : M (option A) :=
  let actions := possible_actions in
  if decide (length actions = 0%nat) then mret None
  else match actions !! idx_choice with
       | Some a => mret (Some a)
       | None => raise IndexError
       end.

Definition update (state action : pyseq) (reward : value) (next_state : pyseq)
  : M unit := mret tt.

End RandomAgent.

(** ** A client: sequences of calls on one RandomAgent *)
Module Client.
Import Agent.

Inductive call :=
| GetQvalue (state action : pyseq)
| SetQvalue (state action : pyseq) (v : value)
| LearningModeOn
| LearningModeOff
| GetValue (state : pyseq) (possible_actions : list pyseq)
| GetAction (possible_actions : list pyseq) (idx_choice : nat)
| Update (state action : pyseq) (reward : value) (next_state : pyseq)
| SaveModel (filename : string)
| LoadModel (filename : string).

(** One call; the client goes on after an exception, so only the world the
    call leaves behind matters here. *)
Definition do_call (c : call) (w : world) : world :=
  match c with
  | GetQvalue s a => world_of (get_qvalue s a w)
  | SetQvalue s a v => world_of (set_qvalue s a v w)
  | LearningModeOn => world_of (learning_mode_on w)
  | LearningModeOff => world_of (learning_mode_off w)
  | GetValue s acts => world_of (RandomAgent.get_value s acts w)
  | GetAction acts i => world_of (RandomAgent.get_action acts i w)
  | Update s a r s' => world_of (RandomAgent.update s a r s' w)
  | SaveModel f => world_of (save_model f w)
  | LoadModel f => world_of (load_model f w)
  end.

Fixpoint run (cs : list call) (w : world) : world :=
  match cs with
  | [] => w
  | c :: cs => run cs (do_call c w)
  end.

(** A newly constructed agent next to whatever is on the disk. *)
Definition fresh (d : disk) : world := {| self := __init__; files := d |}.

End Client.

(** ** Notions used to state the properties *)
Module Spec.
Import Agent Client.

Abbreviation table := (gmap key (gmap key value)).

(** The entry explicitly held for a pair, if any. *)
Definition lookup2 (q : table) (s a : key) : option value :=
  q !! s ≫= λ inner, inner !! a.

(** The q function a table denotes: absent entries read as zero. *)
Definition read (q : table) (s a : key) : value := default 0%Qc (lookup2 q s a).

(** The table with [v] stored for the pair. *)
Definition store (q : table) (s a : key) (v : value) : table :=
  <[s := <[a := v]> (default ∅ (q !! s))]> q.

(** The table after the pair has been read. *)
Definition touch (q : table) (s a : key) : table := store q s a (read q s a).

(** The table after the list comprehension of [get_value]. *)
Definition touch_all (q : table) (s : key) (acts : list pyseq) : table :=
  foldl (λ q a, touch q s (elements_of a)) q acts.

Definition with_qvalues (q : table) (w : world) : world :=
  {| self := {| _qvalues := q; _learn := _learn (self w) |}; files := files w |}.

(** The dictionary [dict.update] makes of an object, when it accepts it. *)
Definition to_mapping (o : inner_obj) : option (gmap key value) :=
  match o with
  | IDict d => Some d
  | IPairs l => Some (foldl (λ acc kv, <[kv.1 := kv.2]> acc) ∅ l)
  | IScalar _ => None
  end.

(** A file holds the expected two-level mapping when it unpickles to a
    dictionary each of whose values can be read as a dictionary. *)
Definition two_level_mapping (f : npy_file) : Prop :=
  match f with
  | Pickled (ODict d) => map_Forall (λ _ o, is_Some (to_mapping o)) d
  | _ => False
  end.

(** The value a file holds for a pair, if any. *)
Definition file_lookup (f : npy_file) (s a : key) : option value :=
  match f with
  | Pickled (ODict d) =>
      inner ← d !! s ≫= to_mapping; (inner : gmap key value) !! a
  | _ => None
  end.

(** The pure reading of line 99: each value of the loaded dictionary turned
    into a dictionary, or nothing when one of them cannot be. *)
Definition convert_items (l : list (key * inner_obj)) : option (list (key * gmap key value)) :=
  mapM (λ kv, m ← to_mapping kv.2; Some (kv.1, m)) l.

(** The two-level mapping of a file that has one. *)
Definition decode (f : npy_file) : option table :=
  match f with
  | Pickled (ODict d) =>
      if decide (map_Forall (λ _ o, is_Some (to_mapping o)) d)
      then Some (omap to_mapping d) else None
  | _ => None
  end.

(** [c], called in world [w], stores a value for the pair: a [set_qvalue] on
    it, or a [load_model] from a file that holds it. *)
Definition stores (c : call) (w : world) (s a : key) : bool :=
  match c with
  | SetQvalue s' a' _ =>
      bool_decide (elements_of s' = s ∧ elements_of a' = a)
  | LoadModel f =>
      bool_decide (is_Some (files w !! f ≫= λ file, file_lookup file s a))
  | _ => false
  end.

(** No call of the sequence, started in [w], stores a value for the pair. *)
Fixpoint never_stored (cs : list call) (w : world) (s a : key) : bool :=
  match cs with
  | [] => true
  | c :: cs => negb (stores c w s a) && never_stored cs (do_call c w) s a
  end.

(** Some call of the sequence is a [set_qvalue] on the pair. *)
Definition explicitly_set (cs : list call) (s a : key) : bool :=
  existsb (λ c, match c with
                | SetQvalue s' a' _ =>
                    bool_decide (elements_of s' = s ∧ elements_of a' = a)
                | _ => false
                end) cs.

(** [c] reads the pair through [get_qvalue], directly or inside
    [get_value]. *)
Definition queries (c : call) (s a : key) : bool :=
  match c with
  | GetQvalue s' a' => bool_decide (elements_of s' = s ∧ elements_of a' = a)
  | GetValue s' acts =>
      bool_decide (elements_of s' = s ∧ a ∈ elements_of <$> acts)
  | _ => false
  end.

(** The pairs the table of the agent holds after the calls, given the ones
    [held] before: those stored or queried, a successful load starting over
    from the pairs of its file. *)
Fixpoint held_after (cs : list call) (w : world) (held : key → key → bool)
  : key → key → bool :=
  match cs with
  | [] => held
  | c :: cs =>
      held_after cs (do_call c w)
        (match c with
         | LoadModel f =>
             match files w !! f ≫= decode with
             | Some q => λ s a, bool_decide (is_Some (lookup2 q s a))
             | None => held
             end
         | _ => λ s a, stores c w s a || queries c s a || held s a
         end)
  end.

(** The saved mapping of [filename] has an entry for the pair. *)
Definition saved_has (w : world) (filename : string) (s a : key) : bool :=
  bool_decide (is_Some (files w !! filename ≫= λ file, file_lookup file s a)).

(** Two outcomes show the same result and leave the same table. *)
Definition agree {A} (o1 o2 : outcome A) : Prop :=
  result_of o1 = result_of o2 ∧
  _qvalues (self (world_of o1)) = _qvalues (self (world_of o2)).

(** Saving the table of [w] under [filename] and loading that name into a
    new agent gives an agent that answers [get_qvalue] with the value the
    table held for the pair, and with zero where it held none. *)
Definition round_trip (w : world) (filename : string) : Prop :=
  ∃ w1 w2,
    save_model filename w = Return tt w1 ∧
    load_model filename (fresh (files w1)) = Return tt w2 ∧
    ∀ s a,
      result_of (get_qvalue s a w2) =
      inr (match lookup2 (_qvalues (self w)) (elements_of s) (elements_of a) with
           | Some v => v
           | None => 0%Qc
           end).

(** The claim that only explicitly set pairs are persisted. *)
Definition only_set_pairs_saved : Prop :=
  ∀ (cs : list call) (d : disk) (f : string) (s a : key),
    saved_has (run (cs ++ [SaveModel f]) (fresh d)) (npy_name f) s a = true →
    explicitly_set cs s a = true.

(** [c] can change a q value: it is a [set_qvalue] or a [load_model]. *)
Definition writes_table (c : call) : bool :=
  match c with
  | SetQvalue _ _ _ | LoadModel _ => true
  | _ => false
  end.

(** [c] writes the file called [name]. *)
Definition saves_to (name : string) (c : call) : bool :=
  match c with
  | SaveModel g => bool_decide (npy_name g = name)
  | _ => false
  end.

(** The learning flag after the calls, [b] being the flag before: what the
    last toggle of the sequence set. *)
Definition flag_after (cs : list call) (b : bool) : bool :=
  foldl (λ b c, match c with
                | LearningModeOn => true
                | LearningModeOff => false
                | _ => b
                end) b cs.

End Spec.

(** ** The methods, equationally *)
Module Facts.
Import Agent Client Spec.

Lemma lookup2_store (q : table) (s a s' a' : key) (v : value) :
  lookup2 (store q s a v) s' a' =
  if decide (s' = s ∧ a' = a) then Some v else lookup2 q s' a'.
Proof.
  unfold lookup2, store.
  destruct (decide (s' = s)) as [->|Hs].
  - rewrite lookup_insert_eq. simpl.
    destruct (decide (a' = a)) as [->|Ha].
    + rewrite lookup_insert_eq. by rewrite decide_True.
    + rewrite lookup_insert_ne by done.
      rewrite decide_False; [|by intros [_ ?]].
      by destruct (q !! s).
  - rewrite lookup_insert_ne by done.
    rewrite decide_False; [done|by intros [? _]].
Qed.

Lemma read_store (q : table) (s a s' a' : key) (v : value) :
  read (store q s a v) s' a' =
  if decide (s' = s ∧ a' = a) then v else read q s' a'.
Proof. unfold read. rewrite lookup2_store. by case_decide. Qed.

Lemma lookup2_touch (q : table) (s a s' a' : key) :
  lookup2 (touch q s a) s' a' =
  if decide (s' = s ∧ a' = a) then Some (read q s a) else lookup2 q s' a'.
Proof. apply lookup2_store. Qed.

(** Reading stores a zero at most: the q function stays what it was. *)
Lemma read_touch (q : table) (s a s' a' : key) :
  read (touch q s a) s' a' = read q s' a'.
Proof.
  unfold touch. rewrite read_store.
  case_decide as H; [by destruct H as [-> ->]|done].
Qed.

Lemma bind_eq {A B} (m : M A) (f : A → M B) (w : world) :
  (m ≫= f) w =
  match m w with
  | Return a w' => f a w'
  | Raise e w' => Raise e w'
  end.
Proof. done. Qed.

Lemma with_qvalues_id (w : world) : with_qvalues (_qvalues (self w)) w = w.
Proof. by destruct w as [[] ?]. Qed.

Lemma get_qvalue_eq (s a : pyseq) (w : world) :
  get_qvalue s a w =
  Return (read (_qvalues (self w)) (elements_of s) (elements_of a))
         (with_qvalues (touch (_qvalues (self w)) (elements_of s) (elements_of a)) w).
Proof.
  unfold get_qvalue, get_qvalues, put_qvalues, mbind, M_bind, mret, M_ret.
  unfold defaultdict_getitem, with_qvalues, touch, store, read, lookup2.
  unfold elements_of, py_tuple. cbn.
  destruct (_qvalues (self w) !! py_list s) as [inner|] eqn:Hs; cbn.
  - destruct (inner !! py_list a) as [v|] eqn:Ha; cbn; [|done].
    by rewrite (insert_id inner _ _ Ha).
  - by rewrite lookup_empty, insert_insert_eq.
Qed.

Lemma set_qvalue_eq (s a : pyseq) (v : value) (w : world) :
  set_qvalue s a v w =
  Return tt (with_qvalues (store (_qvalues (self w)) (elements_of s) (elements_of a) v) w).
Proof.
  unfold set_qvalue, get_qvalues, put_qvalues, mbind, M_bind.
  unfold defaultdict_getitem, with_qvalues, store, elements_of, py_tuple. cbn.
  destruct (_qvalues (self w) !! py_list s) as [inner|] eqn:Hs; cbn; [done|].
  by rewrite insert_insert_eq.
Qed.

Lemma read_touch_all (q : table) (s : key) (acts : list pyseq) (s' a' : key) :
  read (touch_all q s acts) s' a' = read q s' a'.
Proof.
  revert q. induction acts as [|a acts IH]; intros q; [done|].
  cbn. unfold touch_all in IH. by rewrite IH, read_touch.
Qed.

Lemma mapM_get_qvalue (s : pyseq) (acts : list pyseq) (w : world) :
  mapM (get_qvalue s) acts w =
  Return ((λ a, read (_qvalues (self w)) (elements_of s) (elements_of a)) <$> acts)
         (with_qvalues (touch_all (_qvalues (self w)) (elements_of s) acts) w).
Proof.
  revert w. induction acts as [|a acts IH]; intros w.
  - cbn. by rewrite with_qvalues_id.
  - cbn. unfold mbind at 1, M_bind. rewrite get_qvalue_eq.
    unfold mbind at 1, M_bind. rewrite IH. cbn.
    f_equal. f_equal.
    apply list_fmap_ext. intros _ a' _. by rewrite read_touch.
Qed.

Lemma get_value_eq (s : pyseq) (acts : list pyseq) (w : world) :
  RandomAgent.get_value s acts w =
  Return (let q_val := (λ a, read (_qvalues (self w)) (elements_of s) (elements_of a)) <$> acts in
          if decide (length q_val = 0%nat) then 0%Qc
          else (RandomAgent.np_sum q_val / Qc_of_Z (Z.of_nat (length q_val)))%Qc)
         (with_qvalues (touch_all (_qvalues (self w)) (elements_of s) acts) w).
Proof.
  unfold RandomAgent.get_value. unfold mbind, M_bind.
  rewrite mapM_get_qvalue. cbn zeta. by case_decide.
Qed.

Lemma save_model_eq (filename : string) (w : world) :
  save_model filename w =
  Return tt {| self := self w;
               files := <[npy_name filename :=
                            Pickled (ODict (IDict <$> _qvalues (self w)))]> (files w) |}.
Proof. done. Qed.

Lemma _dict_to_defaultdict_eq (o : inner_obj) (w : world) :
  _dict_to_defaultdict o w =
  match to_mapping o with
  | Some m => Return m w
  | None => Raise TypeError w
  end.
Proof.
  destruct o as [d|l|v]; cbn; [|done..].
  unfold mret, M_ret. by rewrite (right_id_L ∅ (∪)).
Qed.

Lemma mapM_convert (l : list (key * inner_obj)) (w : world) :
  mapM (λ kv, res ← _dict_to_defaultdict kv.2; mret (kv.1, res)) l w =
  match convert_items l with
  | Some l' => Return l' w
  | None => Raise TypeError w
  end.
Proof.
  unfold convert_items.
  induction l as [|[k o] l IH]; [done|].
  cbn. rewrite !bind_eq, _dict_to_defaultdict_eq.
  destruct (to_mapping o) as [m|]; cbn; [|done].
  rewrite bind_eq, IH.
  by destruct (mapM (M:=option) _ l).
Qed.

Lemma convert_items_map (l : list (key * inner_obj)) (l' : list (key * gmap key value)) :
  convert_items l = Some l' →
  list_to_map l' =@{table} omap to_mapping (list_to_map l).
Proof.
  unfold convert_items.
  revert l'. induction l as [|[k o] l IH]; intros l' Hl'; cbn in Hl'.
  - injection Hl' as <-. cbn. by rewrite omap_empty.
  - destruct (to_mapping o) as [m|] eqn:Ho; cbn in Hl'; [|done].
    destruct (mapM (M:=option) _ l) as [l0|] eqn:Hl0; cbn in Hl'; [|done].
    injection Hl' as <-. cbn.
    rewrite (omap_insert_Some _ _ _ _ m) by done.
    by rewrite (IH l0).
Qed.

Lemma convert_items_is_Some (d : gmap key inner_obj) :
  is_Some (convert_items (map_to_list d)) ↔
  map_Forall (λ _ o, is_Some (to_mapping o)) d.
Proof.
  unfold convert_items. rewrite mapM_is_Some, map_Forall_to_list.
  apply Forall_iff. intros [k o]. cbn.
  destruct (to_mapping o); cbn; split; intros [? ?]; eauto; done.
Qed.

(** What [load_model] does, by the content of the file. *)
Lemma load_model_eq (filename : string) (w : world) :
  load_model filename w =
  match files w !! filename with
  | None => Raise FileNotFoundError w
  | Some Garbage => Raise UnpicklingError w
  | Some (Pickled (OScalar _)) => Raise AttributeError w
  | Some (Pickled (ODict d) as file) =>
      match decode file with
      | Some q => Return tt (with_qvalues q w)
      | None => Raise TypeError w
      end
  end.
Proof.
  unfold load_model, get_files, np_load_item. rewrite bind_eq.
  destruct (files w !! filename) as [[|[d|v]]|]; [done| |done|done].
  rewrite bind_eq. unfold mret at 1, M_ret.
  rewrite bind_eq. unfold py_items, mret at 1, M_ret.
  rewrite bind_eq, mapM_convert. unfold decode.
  destruct (convert_items (map_to_list d)) as [l'|] eqn:Hl'.
  - rewrite decide_True by (apply convert_items_is_Some; rewrite Hl'; eauto).
    cbn. unfold with_qvalues. cbn.
    rewrite (convert_items_map _ _ Hl'), list_to_map_to_list.
    rewrite bind_eq. unfold put_qvalues at 1. rewrite bind_eq.
    unfold get_qvalues, put_qvalues. cbn [self _qvalues _learn files].
    by rewrite (right_id_L ∅ (∪)).
  - rewrite decide_False; [done|].
    intros H%convert_items_is_Some. rewrite Hl' in H. by destruct H.
Qed.

Lemma decode_lookup2 (file : npy_file) (q : table) (s a : key) :
  decode file = Some q → lookup2 q s a = file_lookup file s a.
Proof.
  destruct file as [|[d|v]]; cbn; [done| |done].
  case_decide; [|done]. intros [= <-].
  unfold lookup2. by rewrite lookup_omap.
Qed.

Lemma decode_two_level (file : npy_file) :
  is_Some (decode file) ↔ two_level_mapping file.
Proof.
  destruct file as [|[d|v]]; cbn; [by split; [intros []|]| |by split; [intros []|]].
  case_decide as H; split; intros H'; [done|eauto|by destruct H'|by destruct H].
Qed.

Lemma lookup2_touch_all (q : table) (s : key) (acts : list pyseq) (s' a' : key) :
  is_Some (lookup2 (touch_all q s acts) s' a') ↔
  (s' = s ∧ a' ∈ elements_of <$> acts) ∨ is_Some (lookup2 q s' a').
Proof.
  revert q. induction acts as [|a acts IH]; intros q; cbn.
  - rewrite elem_of_nil. tauto.
  - unfold touch_all in IH. rewrite IH, lookup2_touch, elem_of_cons.
    case_decide as H; [destruct H as [-> ->]|tauto].
    split; intros _; [left|right]; eauto.
Qed.

(** The table a call leaves behind. *)
Lemma do_call_table (c : call) (w : world) :
  _qvalues (self (do_call c w)) =
  let q := _qvalues (self w) in
  match c with
  | GetQvalue s a => touch q (elements_of s) (elements_of a)
  | SetQvalue s a v => store q (elements_of s) (elements_of a) v
  | GetValue s acts => touch_all q (elements_of s) acts
  | LoadModel f => default q (files w !! f ≫= decode)
  | _ => q
  end.
Proof.
  destruct c as [s a|s a v| | |s acts|acts i|s a r s'|f|f]; cbn [do_call].
  - by rewrite get_qvalue_eq.
  - by rewrite set_qvalue_eq.
  - done.
  - done.
  - by rewrite get_value_eq.
  - unfold RandomAgent.get_action. case_decide; [done|].
    by destruct (acts !! i).
  - done.
  - done.
  - rewrite load_model_eq.
    destruct (files w !! f) as [[|[d|v]]|]; [done| |done|done].
    cbn [mbind option_bind default].
    by destruct (decode _).
Qed.

(** Only [save_model] writes to the disk. *)
Lemma do_call_files (c : call) (w : world) :
  files (do_call c w) =
  match c with
  | SaveModel f =>
      <[npy_name f := Pickled (ODict (IDict <$> _qvalues (self w)))]> (files w)
  | _ => files w
  end.
Proof.
  destruct c as [s a|s a v| | |s acts|acts i|s a r s'|f|f]; cbn [do_call].
  - by rewrite get_qvalue_eq.
  - by rewrite set_qvalue_eq.
  - done.
  - done.
  - by rewrite get_value_eq.
  - unfold RandomAgent.get_action. case_decide; [done|].
    by destruct (acts !! i).
  - done.
  - done.
  - rewrite load_model_eq.
    destruct (files w !! f) as [[|[d|v]]|]; [done| |done|done].
    by destruct (decode _).
Qed.

Lemma run_app (cs cs' : list call) (w : world) :
  run (cs ++ cs') w = run cs' (run cs w).
Proof. revert w. induction cs as [|c cs IH]; intros w; [done|]. cbn. apply IH. Qed.

(** A call that does not store the pair leaves its q value alone. *)
Lemma do_call_read (c : call) (w : world) (s a : key) :
  stores c w s a = false →
  read (_qvalues (self w)) s a = 0%Qc →
  read (_qvalues (self (do_call c w))) s a = 0%Qc.
Proof.
  intros Hc Hw. rewrite do_call_table. cbn zeta.
  destruct c as [s' a'|s' a' v| | |s' acts|acts i|s' a' r s''|f|f]; try done.
  - by rewrite read_touch.
  - rewrite read_store. cbn in Hc. apply bool_decide_eq_false in Hc.
    by rewrite decide_False; [|intros [-> ->]; apply Hc].
  - by rewrite read_touch_all.
  - cbn in Hc. apply bool_decide_eq_false in Hc.
    destruct (files w !! f) as [file|]; cbn in *; [|done].
    destruct (decode file) as [q|] eqn:Hq; cbn; [|done].
    unfold read. rewrite (decode_lookup2 _ _ _ _ Hq).
    destruct (file_lookup file s a); [|done]. destruct Hc. eauto.
Qed.

Lemma run_read (cs : list call) (w : world) (s a : key) :
  never_stored cs w s a = true →
  read (_qvalues (self w)) s a = 0%Qc →
  read (_qvalues (self (run cs w))) s a = 0%Qc.
Proof.
  revert w. induction cs as [|c cs IH]; intros w Hcs Hw; [done|].
  cbn in *. apply andb_true_iff in Hcs as [Hc Hcs].
  apply negb_true_iff in Hc. apply IH; [done|].
  by apply do_call_read.
Qed.

(** [held_after] follows the domain of the table along the calls. *)
Lemma do_call_held (c : call) (w : world) (held : key → key → bool) (s a : key) :
  (held s a = true ↔ is_Some (lookup2 (_qvalues (self w)) s a)) →
  held_after [c] w held s a = true ↔
  is_Some (lookup2 (_qvalues (self (do_call c w))) s a).
Proof.
  intros Hheld. rewrite do_call_table. cbn zeta.
  destruct c as [s' a'|s' a' v| | |s' acts|acts i|s' a' r s''|f|f];
    cbn [held_after stores queries orb]; try done.
  - rewrite lookup2_touch, orb_true_iff, bool_decide_eq_true.
    case_decide as H; [destruct H as [-> ->]|].
    + split; intros _; [eauto|by left].
    + rewrite <-Hheld. split; [intros [[<- <-]|]; [by destruct H|done]|by right].
  - rewrite lookup2_store, orb_false_r, orb_true_iff, bool_decide_eq_true.
    case_decide as H; [destruct H as [-> ->]|].
    + split; intros _; [eauto|by left].
    + rewrite <-Hheld. split; [intros [[<- <-]|]; [by destruct H|done]|by right].
  - rewrite lookup2_touch_all, orb_true_iff, bool_decide_eq_true, <-Hheld.
    split; (intros [[? ?]|]; [by left|by right]).
  - destruct (files w !! f ≫= decode) as [q|]; cbn [default]; [|done].
    by rewrite bool_decide_eq_true.
Qed.

Lemma run_held (cs : list call) (w : world) (held : key → key → bool) :
  (∀ s a, held s a = true ↔ is_Some (lookup2 (_qvalues (self w)) s a)) →
  ∀ s a, held_after cs w held s a = true ↔
         is_Some (lookup2 (_qvalues (self (run cs w))) s a).
Proof.
  revert w held. induction cs as [|c cs IH]; intros w held Hheld s a; [apply Hheld|].
  cbn [run]. rewrite <-IH; [done|].
  intros s0 a0. by apply (do_call_held c w held).
Qed.

Lemma foldl_Qcplus (acc : value) (l : list value) :
  foldl Qcplus acc l = (acc + foldr Qcplus 0 l)%Qc.
Proof.
  revert acc. induction l as [|x l IH]; intros acc; cbn.
  - by rewrite Qcplus_0_r.
  - by rewrite IH, Qcplus_assoc.
Qed.

(** [np.sum] adds up the list. *)
Lemma np_sum_foldr (l : list value) :
  RandomAgent.np_sum l = foldr Qcplus 0%Qc l.
Proof. unfold RandomAgent.np_sum. by rewrite foldl_Qcplus, Qcplus_0_l. Qed.

Lemma get_action_eq {A} (acts : list A) (idx : nat) (w : world) :
  RandomAgent.get_action acts idx w =
  match acts with
  | [] => Return None w
  | _ => match acts !! idx with
         | Some a => Return (Some a) w
         | None => Raise IndexError w
         end
  end.
Proof.
  unfold RandomAgent.get_action. destruct acts as [|a acts]; [done|].
  rewrite decide_False by done. by destruct (_ !! idx).
Qed.

Lemma store_store (q : table) (s a : key) (v1 v2 : value) :
  store (store q s a v1) s a v2 = store q s a v2.
Proof.
  unfold store. rewrite lookup_insert_eq. cbn.
  by rewrite !insert_insert_eq.
Qed.

Lemma store_commute (q : table) (s a s' a' : key) (v v' : value) :
  (s, a) ≠ (s', a') →
  store (store q s a v) s' a' v' = store (store q s' a' v') s a v.
Proof.
  intros Hne. unfold store.
  destruct (decide (s = s')) as [<-|Hs].
  - assert (a ≠ a') as Ha by (intros ->; by destruct Hne).
    rewrite !lookup_insert_eq. cbn. rewrite !insert_insert_eq.
    by rewrite (insert_insert_ne _ a a') by done.
  - rewrite !lookup_insert_ne by done.
    by rewrite (insert_insert_ne _ s s') by done.
Qed.

Lemma touch_present (q : table) (s a : key) (v : value) :
  lookup2 q s a = Some v → touch q s a = q.
Proof.
  unfold touch, store, read, lookup2. intros Hv.
  destruct (q !! s) as [inner|] eqn:Hs; cbn in *; [|done].
  rewrite Hv. cbn. rewrite (insert_id inner) by done.
  by rewrite insert_id.
Qed.



Lemma decode_saved (q : table) : decode (Pickled (ODict (IDict <$> q))) = Some q.
Proof.
  cbn. rewrite decide_True.
  - f_equal. apply map_eq. intros k.
    rewrite lookup_omap, lookup_fmap. by destruct (_ !! k).
  - intros k o. rewrite lookup_fmap.
    destruct (_ !! k); intros [= <-]. cbn. eauto.
Qed.

(** The learning flag a call leaves behind. *)
Lemma do_call_learn (c : call) (w : world) :
  _learn (self (do_call c w)) =
  match c with
  | LearningModeOn => true
  | LearningModeOff => false
  | _ => _learn (self w)
  end.
Proof.
  destruct c as [s a|s a v| | |s acts|acts i|s a r s'|f|f]; cbn [do_call].
  - by rewrite get_qvalue_eq.
  - by rewrite set_qvalue_eq.
  - done.
  - done.
  - by rewrite get_value_eq.
  - rewrite get_action_eq. destruct acts; [done|]. by destruct (_ !! i).
  - done.
  - done.
  - rewrite load_model_eq.
    destruct (files w !! f) as [[|[d|v]]|]; [done| |done|done].
    by destruct (decode _).
Qed.

Lemma do_call_read_frame (c : call) (w : world) (s a : key) :
  writes_table c = false →
  read (_qvalues (self (do_call c w))) s a = read (_qvalues (self w)) s a.
Proof.
  intros Hc. rewrite do_call_table. cbn zeta.
  destruct c as [s' a'|s' a' v| | |s' acts|acts i|s' a' r s''|f|f]; try done.
  - apply read_touch.
  - apply read_touch_all.
Qed.

Lemma do_call_file_frame (c : call) (w : world) (name : string) :
  saves_to name c = false →
  files (do_call c w) !! name = files w !! name.
Proof.
  intros Hc. rewrite do_call_files.
  destruct c as [s a|s a v| | |s acts|acts i|s a r s'|f|f]; try done.
  cbn in Hc. apply bool_decide_eq_false in Hc.
  by rewrite lookup_insert_ne.
Qed.

Lemma lookup2_touch_all_elem (q : table) (s : key) (acts : list pyseq) (a : pyseq) :
  a ∈ acts →
  lookup2 (touch_all q s acts) s (elements_of a) = Some (read q s (elements_of a)).
Proof.
  intros Ha.
  assert (is_Some (lookup2 (touch_all q s acts) s (elements_of a))) as [v Hv].
  { apply lookup2_touch_all. left. split; [done|].
    apply list_elem_of_fmap. eauto. }
  rewrite Hv. f_equal.
  rewrite <-(read_touch_all q s acts s (elements_of a)).
  unfold read. by rewrite Hv.
Qed.

Lemma np_sum_zeros (l : list value) :
  Forall (λ q, q = 0%Qc) l → RandomAgent.np_sum l = 0%Qc.
Proof.
  intros Hl. rewrite np_sum_foldr.
  induction Hl as [|q l -> _ IH]; [done|].
  cbn. by rewrite IH, Qcplus_0_l.
Qed.

End Facts.

(** ** The properties of the specification *)
Module Properties.
Import Agent Client Spec Facts.

(** C1. A pair for which no value was ever stored reads as zero, and the read
    returns normally: after any sequence of calls on a new agent in which no
    [set_qvalue] names the pair and no [load_model] reads a file holding it,
    [get_qvalue] returns 0. *)
Theorem get_qvalue_unset_is_zero (cs : list call) (d : disk) (s a : pyseq) :
  never_stored cs (fresh d) (elements_of s) (elements_of a) = true →
  result_of (get_qvalue s a (run cs (fresh d))) = inr 0%Qc.
Proof.
  intros Hcs. rewrite get_qvalue_eq. cbn. f_equal.
  by apply run_read.
Qed.

Lemma get_qvalue_unset_is_zero_witness :
  let cs := [SetQvalue (PyList [PInt 1; PInt 2]) (PyList [PInt 0]) (Qc_of_Z 5);
             GetQvalue (PyList [PInt 1; PInt 2]) (PyList [PInt 1]);
             GetValue (PyString [97; 98]%N) [PyList [PInt 0]; PyList [PInt 1]];
             LearningModeOff;
             SaveModel "q.npy";
             LoadModel "q.npy";
             LoadModel "missing.npy"] in
  let s := PyTuple [PInt 1; PInt 2] in
  let a := PyList [PInt 7] in
  never_stored cs (fresh ∅) (elements_of s) (elements_of a) = true ∧
  result_of (get_qvalue s a (run cs (fresh ∅))) = inr 0%Qc.
Proof.
  split; [vm_compute; reflexivity|].
  apply (get_qvalue_unset_is_zero _ ∅). vm_compute. reflexivity.
Defined.

(** C2. After [set_qvalue(s, a, v)], [get_qvalue] on the same element
    sequences returns [v], whatever containers carry them (lists, tuples or
    strings) in either call. *)
Theorem set_then_get (w : world) (s a s' a' : pyseq) (v : value) :
  elements_of s' = elements_of s →
  elements_of a' = elements_of a →
  result_of ((set_qvalue s a v;; get_qvalue s' a') w) = inr v.
Proof.
  intros Hs Ha. rewrite bind_eq, set_qvalue_eq, get_qvalue_eq. cbn.
  rewrite Hs, Ha, read_store. by rewrite decide_True.
Qed.

Lemma set_then_get_witness :
  elements_of (PyTuple [PInt 1; PInt 2]) = elements_of (PyList [PInt 1; PInt 2]) ∧
  elements_of (PyTuple [PInt 0]) = elements_of (PyList [PInt 0]) ∧
  result_of ((set_qvalue (PyList [PInt 1; PInt 2]) (PyList [PInt 0]) (Qc_of_Z 5);;
              get_qvalue (PyTuple [PInt 1; PInt 2]) (PyTuple [PInt 0])) (fresh ∅))
  = inr (Qc_of_Z 5).
Proof.
  split; [reflexivity|]. split; [reflexivity|].
  apply set_then_get; reflexivity.
Defined.

(** C3. Saving under a name with the [.npy] extension, the one the
    docstrings of [save_model] and [load_model] ask for, and loading that name
    into a new agent gives back the table: [get_qvalue] returns the stored
    value for every pair the saved table held and 0 for every other pair. *)
Theorem save_load_round_trip (w : world) (filename : string) :
  endswith filename ".npy" = true → round_trip w filename.
Proof.
  intros Hname. unfold round_trip.
  rewrite save_model_eq. eexists _, _. split; [done|].
  rewrite load_model_eq. cbn [files fresh].
  unfold npy_name. rewrite Hname, lookup_insert_eq.
  assert (decode (Pickled (ODict (IDict <$> _qvalues (self w))))
          = Some (_qvalues (self w))) as ->.
  { cbn. rewrite decide_True.
    - f_equal. apply map_eq. intros k.
      rewrite lookup_omap, lookup_fmap. by destruct (_ !! k).
    - intros k o. rewrite lookup_fmap.
      destruct (_ !! k); intros [= <-]. cbn. eauto. }
  split; [done|]. intros s a. by rewrite get_qvalue_eq.
Qed.

Lemma save_load_round_trip_witness :
  let w := run [SetQvalue (PyList [PInt 1; PInt 2]) (PyList [PInt 0]) (Qc_of_Z 5);
                GetQvalue (PyList [PInt 3]) (PyList [PInt 1])] (fresh ∅) in
  endswith "model.npy" ".npy" = true ∧ round_trip w "model.npy".
Proof.
  split; [reflexivity|].
  apply (save_load_round_trip _ "model.npy"). reflexivity.
Defined.

(** Without the extension [np.save] writes to another name than the one
    [np.load] opens: the load finds no file, and the new agent does not know
    the value that was saved. *)
Lemma save_load_without_extension :
  let s := PyList [PInt 1; PInt 2] in
  let a := PyList [PInt 0] in
  let w := world_of (set_qvalue s a (Qc_of_Z 5) (fresh ∅)) in
  let w1 := world_of (save_model "model" w) in
  result_of (get_qvalue s a w) = inr (Qc_of_Z 5) ∧
  load_model "model" (fresh (files w1)) = Raise FileNotFoundError (fresh (files w1)) ∧
  result_of (get_qvalue s a (world_of (load_model "model" (fresh (files w1))))) = inr 0%Qc ∧
  ¬ round_trip w "model".
Proof.
  cbn zeta. split; [vm_compute; reflexivity|].
  split; [vm_compute; reflexivity|].
  split; [vm_compute; reflexivity|].
  intros (w1 & w2 & Hsave & Hload & _).
  rewrite save_model_eq in Hsave. injection Hsave as <-.
  vm_compute in Hload. discriminate Hload.
Qed.

(** C4. What [save_model] writes is the whole in-memory table, entry by
    entry: the pairs stored by [set_qvalue] or [load_model] and also the pairs
    that were only queried through [get_qvalue] or [get_value], which a read
    stores with the default 0.  Pairs neither stored nor queried are not in
    the saved mapping. *)
Theorem save_model_persists_table (cs : list call) (d : disk) (f : string) :
  let w := run cs (fresh d) in
  let w' := run (cs ++ [SaveModel f]) (fresh d) in
  let file := Pickled (ODict (IDict <$> _qvalues (self w))) in
  files w' !! npy_name f = Some file ∧
  ∀ s a,
    file_lookup file s a = lookup2 (_qvalues (self w)) s a ∧
    saved_has w' (npy_name f) s a = held_after cs (fresh d) (λ _ _, false) s a.
Proof.
  cbn zeta. rewrite run_app. cbn [run].
  rewrite do_call_files, lookup_insert_eq. split; [done|].
  intros s a.
  assert (file_lookup (Pickled (ODict (IDict <$> _qvalues (self (run cs (fresh d)))))) s a
          = lookup2 (_qvalues (self (run cs (fresh d)))) s a) as Hfile.
  { cbn. unfold lookup2. rewrite lookup_fmap. by destruct (_ !! s). }
  split; [done|].
  unfold saved_has. rewrite do_call_files, lookup_insert_eq.
  cbn [mbind option_bind]. rewrite Hfile.
  apply eq_true_iff_eq. rewrite bool_decide_eq_true. symmetry.
  apply run_held. intros s0 a0. cbn.
  unfold lookup2. rewrite lookup_empty. cbn. split; [done|by intros []].
Qed.

(** A pair that was only read is in the saved mapping, with the value 0,
    although no [set_qvalue] ever named it. *)
Lemma queried_pair_is_saved :
  let cs := [GetQvalue (PyList [PInt 1]) (PyList [PInt 0])] in
  let w' := run (cs ++ [SaveModel "q.npy"]) (fresh ∅) in
  explicitly_set cs [PInt 1] [PInt 0] = false ∧
  saved_has w' (npy_name "q.npy") [PInt 1] [PInt 0] = true ∧
  (files w' !! "q.npy" ≫= λ file, file_lookup file [PInt 1] [PInt 0]) = Some 0%Qc ∧
  ¬ only_set_pairs_saved.
Proof.
  cbn zeta. split; [reflexivity|].
  split; [vm_compute; reflexivity|].
  split; [vm_compute; reflexivity|].
  intros H.
  assert (explicitly_set [GetQvalue (PyList [PInt 1]) (PyList [PInt 0])]
            [PInt 1] [PInt 0] = true) as Hset.
  { apply (H _ ∅ "q.npy"). vm_compute. reflexivity. }
  vm_compute in Hset. discriminate Hset.
Qed.

(** C5. A successful [load_model] keeps nothing of the earlier table: a pair
    the loaded file does not hold reads as zero afterwards, whatever was
    stored for it before. *)
Theorem load_model_replaces (w w' : world) (filename : string) (file : npy_file) :
  files w !! filename = Some file →
  load_model filename w = Return tt w' →
  ∀ s a, file_lookup file (elements_of s) (elements_of a) = None →
         result_of (get_qvalue s a w') = inr 0%Qc.
Proof.
  intros Hfile Hload s a Hsa. rewrite load_model_eq, Hfile in Hload.
  destruct file as [|[d|v]]; [done| |done].
  destruct (decode _) as [q|] eqn:Hq; [|done].
  injection Hload as <-. rewrite get_qvalue_eq. cbn. f_equal.
  unfold read. by rewrite (decode_lookup2 _ _ _ _ Hq), Hsa.
Qed.

Lemma load_model_replaces_witness :
  let file := Pickled (ODict {[ [PInt 9] := IDict {[ [PInt 0] := Qc_of_Z 3 ]} ]}) in
  let w := world_of (set_qvalue (PyList [PInt 1; PInt 2]) (PyList [PInt 0]) (Qc_of_Z 5)
                       (fresh {[ "other.npy" := file ]})) in
  let w' := with_qvalues {[ [PInt 9] := {[ [PInt 0] := Qc_of_Z 3 ]} ]} w in
  files w !! "other.npy" = Some file ∧
  load_model "other.npy" w = Return tt w' ∧
  file_lookup file (elements_of (PyList [PInt 1; PInt 2])) (elements_of (PyList [PInt 0])) = None ∧
  result_of (get_qvalue (PyList [PInt 1; PInt 2]) (PyList [PInt 0]) w) = inr (Qc_of_Z 5) ∧
  result_of (get_qvalue (PyList [PInt 1; PInt 2]) (PyList [PInt 0]) w') = inr 0%Qc.
Proof.
  cbn zeta.
  assert (load_model "other.npy"
            (world_of (set_qvalue (PyList [PInt 1; PInt 2]) (PyList [PInt 0]) (Qc_of_Z 5)
               (fresh {[ "other.npy" :=
                  Pickled (ODict {[ [PInt 9] := IDict {[ [PInt 0] := Qc_of_Z 3 ]} ]}) ]})))
          = Return tt
              (with_qvalues {[ [PInt 9] := {[ [PInt 0] := Qc_of_Z 3 ]} ]}
                 (world_of (set_qvalue (PyList [PInt 1; PInt 2]) (PyList [PInt 0]) (Qc_of_Z 5)
                    (fresh {[ "other.npy" :=
                       Pickled (ODict {[ [PInt 9] := IDict {[ [PInt 0] := Qc_of_Z 3 ]} ]}) ]})))))
    as Hload by (vm_compute; reflexivity).
  split; [vm_compute; reflexivity|]. split; [exact Hload|].
  split; [vm_compute; reflexivity|]. split; [vm_compute; reflexivity|].
  eapply load_model_replaces; [|exact Hload|]; vm_compute; reflexivity.
Defined.

(** C6. A [load_model] that cannot read a two-level mapping fails as a
    whole: when the path names no file, or the file does not hold a dictionary
    whose values can be read as dictionaries, the call raises and leaves the
    agent as it was, so every [get_qvalue] answers as before. *)
Theorem load_model_failure_is_atomic (w : world) (filename : string) :
  (files w !! filename = None ∨
   ∃ file, files w !! filename = Some file ∧ ¬ two_level_mapping file) →
  ∃ e, load_model filename w = Raise e w ∧
       ∀ s a, get_qvalue s a (world_of (load_model filename w)) = get_qvalue s a w.
Proof.
  intros Hbad.
  assert (∃ e, load_model filename w = Raise e w) as [e He].
  { rewrite load_model_eq.
    destruct Hbad as [->|(file & -> & Hfile)]; [by eexists|].
    destruct file as [|[d|v]]; [by eexists| |by eexists].
    destruct (decode _) as [q|] eqn:Hq; [|by eexists].
    destruct Hfile. apply decode_two_level. rewrite Hq. eauto. }
  exists e. split; [done|]. intros s a. by rewrite He.
Qed.

Lemma load_model_failure_is_atomic_witness :
  let file := Pickled (ODict {[ [PInt 9] := IScalar (Qc_of_Z 3) ]}) in
  let w := world_of (set_qvalue (PyList [PInt 1; PInt 2]) (PyList [PInt 0]) (Qc_of_Z 5)
                       (fresh {[ "bad.npy" := file ]})) in
  (files w !! "bad.npy" = None ∨
   ∃ file, files w !! "bad.npy" = Some file ∧ ¬ two_level_mapping file) ∧
  ∃ e, load_model "bad.npy" w = Raise e w ∧
       ∀ s a, get_qvalue s a (world_of (load_model "bad.npy" w)) = get_qvalue s a w.
Proof.
  cbn zeta.
  assert (files (world_of (set_qvalue (PyList [PInt 1; PInt 2]) (PyList [PInt 0]) (Qc_of_Z 5)
                   (fresh {[ "bad.npy" :=
                      Pickled (ODict {[ [PInt 9] := IScalar (Qc_of_Z 3) ]}) ]}))) !! "bad.npy"
          = None ∨
          ∃ file,
            files (world_of (set_qvalue (PyList [PInt 1; PInt 2]) (PyList [PInt 0]) (Qc_of_Z 5)
                     (fresh {[ "bad.npy" :=
                        Pickled (ODict {[ [PInt 9] := IScalar (Qc_of_Z 3) ]}) ]}))) !! "bad.npy"
            = Some file ∧ ¬ two_level_mapping file) as Hbad.
  { right. eexists. split; [vm_compute; reflexivity|].
    intros H. specialize (H [PInt 9] (IScalar (Qc_of_Z 3))).
    destruct H as [m Hm]; [vm_compute; reflexivity|discriminate Hm]. }
  split; [exact Hbad|].
  exact (load_model_failure_is_atomic _ "bad.npy" Hbad).
Defined.

(** C8. [RandomAgent.get_action] returns [None] for an empty list.  For a
    non-empty list and any index [np.random.choice] can draw from
    [range(len(actions))] it returns the action at that index, a member of the
    list; over the whole range of draws the answers are the list itself,
    position by position, so that a uniform draw of the index is a uniform
    choice among the positions. *)
Theorem get_action_picks_member {A} (w : world) (acts : list A) :
  (∀ idx, RandomAgent.get_action (@nil A) idx w = Return None w) ∧
  (∀ idx, (idx < length acts)%nat →
          ∃ a, RandomAgent.get_action acts idx w = Return (Some a) w ∧
               acts !! idx = Some a ∧ a ∈ acts) ∧
  (λ idx, result_of (RandomAgent.get_action acts idx w)) <$> seq 0 (length acts)
  = (λ a, inr (Some a)) <$> acts.
Proof.
  split; [done|]. split.
  - intros idx Hidx. apply lookup_lt_is_Some_2 in Hidx as [a Ha].
    exists a. rewrite get_action_eq, Ha.
    split; [by destruct acts|]. split; [done|].
    by apply list_elem_of_lookup_2 in Ha.
  - apply list_eq. intros i. rewrite !list_lookup_fmap.
    destruct (decide (i < length acts)%nat) as [Hi|Hi].
    + rewrite lookup_seq_lt by done. cbn.
      apply lookup_lt_is_Some_2 in Hi as [a Ha].
      rewrite get_action_eq, Ha. by destruct acts.
    + rewrite lookup_seq_ge by lia.
      by rewrite lookup_ge_None_2 by lia.
Qed.

Lemma get_action_picks_member_witness :
  let acts := [PyList [PInt 0]; PyList [PInt 1]; PyList [PInt 2]] in
  (1 < length acts)%nat ∧
  ∃ a, RandomAgent.get_action acts 1 (fresh ∅) = Return (Some a) (fresh ∅) ∧
       acts !! 1%nat = Some a ∧ a ∈ acts.
Proof.
  cbn zeta. split; [cbn; lia|].
  apply (proj1 (proj2 (get_action_picks_member (fresh ∅) _))). cbn; lia.
Defined.

(** C9. [RandomAgent.update] changes nothing: it returns with the agent as
    it was, and every [get_qvalue] answers after the call as before it. *)
Theorem update_is_noop (w : world) (state action : pyseq) (reward : value)
    (next_state : pyseq) :
  RandomAgent.update state action reward next_state w = Return tt w ∧
  ∀ s a,
    result_of (get_qvalue s a
                 (world_of (RandomAgent.update state action reward next_state w)))
    = result_of (get_qvalue s a w).
Proof. done. Qed.

(** C10. The learning flag is not observable on a RandomAgent: two agents
    with the same table, whatever their flags, get the same results from
    [get_qvalue], [get_value], [get_action] (for the same drawn index) and
    [update], and hold the same table afterwards. *)
Theorem learning_flag_not_observable (w1 w2 : world) :
  _qvalues (self w1) = _qvalues (self w2) →
  (∀ s a, agree (get_qvalue s a w1) (get_qvalue s a w2)) ∧
  (∀ s acts, agree (RandomAgent.get_value s acts w1) (RandomAgent.get_value s acts w2)) ∧
  (∀ (acts : list pyseq) idx,
     agree (RandomAgent.get_action acts idx w1) (RandomAgent.get_action acts idx w2)) ∧
  (∀ s a r s', agree (RandomAgent.update s a r s' w1) (RandomAgent.update s a r s' w2)).
Proof.
  intros Hq. unfold agree. repeat split.
  - by rewrite !get_qvalue_eq, Hq.
  - by rewrite !get_qvalue_eq, Hq.
  - by rewrite !get_value_eq, Hq.
  - by rewrite !get_value_eq, Hq.
  - rewrite !get_action_eq. destruct acts; [done|]. by destruct (_ !! idx).
  - rewrite !get_action_eq. destruct acts; [done|]. by destruct (_ !! idx).
  - done.
Qed.

Lemma learning_flag_not_observable_witness :
  let w := world_of (set_qvalue (PyList [PInt 1]) (PyList [PInt 0]) (Qc_of_Z 5) (fresh ∅)) in
  let w1 := world_of (learning_mode_on w) in
  let w2 := world_of (learning_mode_off w) in
  _learn (self w1) ≠ _learn (self w2) ∧
  _qvalues (self w1) = _qvalues (self w2) ∧
  (∀ s a, agree (get_qvalue s a w1) (get_qvalue s a w2)) ∧
  (∀ s acts, agree (RandomAgent.get_value s acts w1) (RandomAgent.get_value s acts w2)) ∧
  (∀ (acts : list pyseq) idx,
     agree (RandomAgent.get_action acts idx w1) (RandomAgent.get_action acts idx w2)) ∧
  (∀ s a r s', agree (RandomAgent.update s a r s' w1) (RandomAgent.update s a r s' w2)).
Proof.
  cbn zeta. split; [cbn; discriminate|]. split; [reflexivity|].
  apply learning_flag_not_observable. reflexivity.
Defined.

End Properties.

(** ** Further properties of the methods *)
Module Extras.
Import Agent Client Spec Facts.

(** X1. [set_qvalue] writes one entry only: the q value of every other pair
    of element sequences is what it was before the call. *)
Theorem set_qvalue_frame (w : world) (s a s' a' : pyseq) (v : value) :
  (elements_of s', elements_of a') ≠ (elements_of s, elements_of a) →
  result_of (get_qvalue s' a' (world_of (set_qvalue s a v w)))
  = result_of (get_qvalue s' a' w).
Proof.
  intros Hne. rewrite set_qvalue_eq, !get_qvalue_eq. cbn. f_equal.
  rewrite read_store. rewrite decide_False; [done|].
  intros [Hs Ha]. apply Hne. by rewrite Hs, Ha.
Qed.

Lemma set_qvalue_frame_witness :
  let s := PyList [PInt 1; PInt 2] in
  let w := world_of (set_qvalue s (PyList [PInt 1]) (Qc_of_Z 7) (fresh ∅)) in
  (elements_of s, elements_of (PyTuple [PInt 1])) ≠ (elements_of s, elements_of (PyList [PInt 0])) ∧
  result_of (get_qvalue s (PyTuple [PInt 1])
               (world_of (set_qvalue s (PyList [PInt 0]) (Qc_of_Z 5) w)))
  = result_of (get_qvalue s (PyTuple [PInt 1]) w).
Proof.
  cbn zeta.
  assert ((elements_of (PyList [PInt 1; PInt 2]), elements_of (PyTuple [PInt 1]))
          ≠ (elements_of (PyList [PInt 1; PInt 2]), elements_of (PyList [PInt 0])))
    as Hne by (cbn; discriminate).
  split; [exact Hne|]. exact (set_qvalue_frame _ _ _ _ _ _ Hne).
Defined.

(** X2. The last write wins: two [set_qvalue] on the same pair leave the
    agent as the second one alone does. *)
Theorem set_qvalue_overwrites (w : world) (s a s' a' : pyseq) (v1 v2 : value) :
  elements_of s' = elements_of s →
  elements_of a' = elements_of a →
  (set_qvalue s a v1;; set_qvalue s' a' v2) w = set_qvalue s' a' v2 w.
Proof.
  intros Hs Ha. rewrite bind_eq, !set_qvalue_eq. cbn.
  by rewrite Hs, Ha, store_store.
Qed.

Lemma set_qvalue_overwrites_witness :
  let s := PyList [PInt 1; PInt 2] in
  let a := PyList [PInt 0] in
  elements_of (PyTuple [PInt 1; PInt 2]) = elements_of s ∧
  elements_of (PyTuple [PInt 0]) = elements_of a ∧
  (set_qvalue s a (Qc_of_Z 5);;
   set_qvalue (PyTuple [PInt 1; PInt 2]) (PyTuple [PInt 0]) (Qc_of_Z 6)) (fresh ∅)
  = set_qvalue (PyTuple [PInt 1; PInt 2]) (PyTuple [PInt 0]) (Qc_of_Z 6) (fresh ∅).
Proof.
  cbn zeta. split; [reflexivity|]. split; [reflexivity|].
  apply set_qvalue_overwrites; reflexivity.
Defined.

(** X3. Writes to different pairs do not interfere: in either order they
    leave the same table. *)
Theorem set_qvalue_commutes (w : world) (s a s' a' : pyseq) (v v' : value) :
  (elements_of s, elements_of a) ≠ (elements_of s', elements_of a') →
  (set_qvalue s a v;; set_qvalue s' a' v') w
  = (set_qvalue s' a' v';; set_qvalue s a v) w.
Proof.
  intros Hne. rewrite !bind_eq, !set_qvalue_eq. cbn.
  by rewrite store_commute.
Qed.

Lemma set_qvalue_commutes_witness :
  let s := PyList [PInt 1; PInt 2] in
  (elements_of s, elements_of (PyList [PInt 0])) ≠ (elements_of s, elements_of (PyList [PInt 1])) ∧
  (set_qvalue s (PyList [PInt 0]) (Qc_of_Z 5);; set_qvalue s (PyList [PInt 1]) (Qc_of_Z 6)) (fresh ∅)
  = (set_qvalue s (PyList [PInt 1]) (Qc_of_Z 6);; set_qvalue s (PyList [PInt 0]) (Qc_of_Z 5)) (fresh ∅).
Proof.
  cbn zeta.
  assert ((elements_of (PyList [PInt 1; PInt 2]), elements_of (PyList [PInt 0]))
          ≠ (elements_of (PyList [PInt 1; PInt 2]), elements_of (PyList [PInt 1])))
    as Hne by (cbn; discriminate).
  split; [exact Hne|]. exact (set_qvalue_commutes _ _ _ _ _ _ _ Hne).
Defined.

(** X4. [get_qvalue] changes no q value: after it, every pair reads as it
    did before; and reading the same pair again changes nothing more. *)
Theorem get_qvalue_reads_only (w : world) (s a : pyseq) :
  (∀ s' a', result_of (get_qvalue s' a' (world_of (get_qvalue s a w)))
            = result_of (get_qvalue s' a' w)) ∧
  (get_qvalue s a;; get_qvalue s a) w = get_qvalue s a w.
Proof.
  split.
  - intros s' a'. rewrite !get_qvalue_eq. cbn. by rewrite read_touch.
  - rewrite bind_eq, !get_qvalue_eq. cbn.
    rewrite read_touch. f_equal. unfold with_qvalues. cbn. do 2 f_equal.
    apply (touch_present _ _ _ (read (_qvalues (self w)) (elements_of s) (elements_of a))).
    rewrite lookup2_touch. by rewrite decide_True.
Qed.

(** X5. [get_qvalue] stores what it returns: after the call the table holds
    an entry for the pair, with the returned value, also when it held none
    before; the disk and the learning flag are not touched. *)
Theorem get_qvalue_stores_entry (w : world) (s a : pyseq) :
  ∃ v w',
    get_qvalue s a w = Return v w' ∧
    lookup2 (_qvalues (self w')) (elements_of s) (elements_of a) = Some v ∧
    files w' = files w ∧ _learn (self w') = _learn (self w).
Proof.
  rewrite get_qvalue_eq. eexists _, _. split; [done|]. cbn.
  rewrite lookup2_touch. by rewrite decide_True.
Qed.

(** X6. A read of a pair the table already holds leaves the agent exactly
    as it was. *)
Theorem get_qvalue_present (w : world) (s a : pyseq) (v : value) :
  lookup2 (_qvalues (self w)) (elements_of s) (elements_of a) = Some v →
  get_qvalue s a w = Return v w.
Proof.
  intros Hv. rewrite get_qvalue_eq. unfold read. rewrite Hv. cbn.
  by rewrite (touch_present _ _ _ _ Hv), with_qvalues_id.
Qed.

Lemma get_qvalue_present_witness :
  let s := PyList [PInt 1; PInt 2] in
  let a := PyList [PInt 0] in
  let w := world_of (set_qvalue s a (Qc_of_Z 5) (fresh ∅)) in
  lookup2 (_qvalues (self w)) (elements_of s) (elements_of a) = Some (Qc_of_Z 5) ∧
  get_qvalue s a w = Return (Qc_of_Z 5) w.
Proof.
  cbn zeta.
  assert (lookup2 (_qvalues (self (world_of (set_qvalue (PyList [PInt 1; PInt 2])
                     (PyList [PInt 0]) (Qc_of_Z 5) (fresh ∅)))))
            (elements_of (PyList [PInt 1; PInt 2])) (elements_of (PyList [PInt 0]))
          = Some (Qc_of_Z 5)) as Hv by (vm_compute; reflexivity).
  split; [exact Hv|]. exact (get_qvalue_present _ _ _ _ Hv).
Defined.

(** X8. Only [set_qvalue] and [load_model] change q values: after any
    sequence of other calls (reads, value estimates, action picks, updates,
    mode toggles, saves) every pair reads as it did before. *)
Theorem q_values_change_by_set_or_load_only (cs : list call) (w : world) :
  forallb (λ c, negb (writes_table c)) cs = true →
  ∀ s a, result_of (get_qvalue s a (run cs w)) = result_of (get_qvalue s a w).
Proof.
  intros Hcs s a. rewrite !get_qvalue_eq. cbn. f_equal.
  revert w. induction cs as [|c cs IH]; intros w; [done|].
  cbn in Hcs. apply andb_true_iff in Hcs as [Hc Hcs].
  apply negb_true_iff in Hc. cbn [run].
  rewrite (IH Hcs). by apply do_call_read_frame.
Qed.

Lemma q_values_change_by_set_or_load_only_witness :
  let w := world_of (set_qvalue (PyList [PInt 1]) (PyList [PInt 0]) (Qc_of_Z 5) (fresh ∅)) in
  let cs := [GetQvalue (PyList [PInt 1]) (PyList [PInt 1]);
             GetValue (PyList [PInt 2]) [PyList [PInt 0]; PyList [PInt 1]];
             GetAction [PyList [PInt 0]] 0;
             Update (PyList [PInt 1]) (PyList [PInt 0]) (Qc_of_Z 9) (PyList [PInt 2]);
             LearningModeOff;
             SaveModel "q.npy"] in
  forallb (λ c, negb (writes_table c)) cs = true ∧
  ∀ s a, result_of (get_qvalue s a (run cs w)) = result_of (get_qvalue s a w).
Proof.
  cbn zeta. split; [reflexivity|].
  apply q_values_change_by_set_or_load_only. reflexivity.
Defined.

(** X9. Only [save_model] writes to the disk, and only to the name
    [np.save] gives the file: after any sequence of calls none of which saves
    to [name], the file of that name is what it was. *)
Theorem disk_changes_by_save_only (cs : list call) (w : world) (name : string) :
  forallb (λ c, negb (saves_to name c)) cs = true →
  files (run cs w) !! name = files w !! name.
Proof.
  revert w. induction cs as [|c cs IH]; intros w Hcs; [done|].
  cbn in Hcs. apply andb_true_iff in Hcs as [Hc Hcs].
  apply negb_true_iff in Hc. cbn [run].
  rewrite (IH _ Hcs). by apply do_call_file_frame.
Qed.

Lemma disk_changes_by_save_only_witness :
  let w := fresh {[ "a.npy" := Garbage ]} in
  let cs := [SetQvalue (PyList [PInt 1]) (PyList [PInt 0]) (Qc_of_Z 5);
             SaveModel "b";
             LoadModel "a.npy";
             LoadModel "b.npy"] in
  forallb (λ c, negb (saves_to "a.npy" c)) cs = true ∧
  files (run cs w) !! "a.npy" = files w !! "a.npy".
Proof.
  cbn zeta. split; [reflexivity|].
  apply disk_changes_by_save_only. reflexivity.
Defined.

(** X10. The learning flag is what the last toggle set, and the flag the
    agent had when no toggle was called: no other method, [load_model]
    included, changes it. *)
Theorem learning_flag_follows_toggles (cs : list call) (w : world) :
  _learn (self (run cs w)) = flag_after cs (_learn (self w)).
Proof.
  revert w. induction cs as [|c cs IH]; intros w; [done|].
  cbn [run]. rewrite IH, do_call_learn. unfold flag_after. cbn [foldl].
  by destruct c.
Qed.



(** X12. [load_model] returns normally exactly when the name it is given is
    that of a file holding a two-level mapping. *)
Theorem load_model_succeeds_iff (w : world) (filename : string) :
  (∃ w', load_model filename w = Return tt w') ↔
  (∃ file, files w !! filename = Some file ∧ two_level_mapping file).
Proof.
  rewrite load_model_eq. split.
  - intros [w' Hw'].
    destruct (files w !! filename) as [file|]; [|done].
    exists file. split; [done|]. apply decode_two_level.
    destruct file as [|[d|v]]; [done| |done].
    by destruct (decode _); [eauto|].
  - intros (file & -> & Hfile). apply decode_two_level in Hfile as [q Hq].
    destruct file as [|[d|v]]; [done| |done].
    rewrite Hq. eauto.
Qed.

(** X13. Whatever makes [load_model] raise, the agent and the disk are then
    exactly as before the call. *)
Theorem load_model_raise_unchanged (w w' : world) (filename : string) (e : exn) :
  load_model filename w = Raise e w' → w' = w.
Proof.
  rewrite load_model_eq.
  destruct (files w !! filename) as [[|[d|v]]|]; try by intros [= _ <-].
  destruct (decode _); [done|]. by intros [= _ <-].
Qed.

Lemma load_model_raise_unchanged_witness :
  let w := world_of (set_qvalue (PyList [PInt 1]) (PyList [PInt 0]) (Qc_of_Z 5)
                       (fresh {[ "bad.npy" := Pickled (OScalar (Qc_of_Z 3)) ]})) in
  load_model "bad.npy" w = Raise AttributeError w ∧ w = w.
Proof.
  cbn zeta.
  assert (load_model "bad.npy"
            (world_of (set_qvalue (PyList [PInt 1]) (PyList [PInt 0]) (Qc_of_Z 5)
                         (fresh {[ "bad.npy" := Pickled (OScalar (Qc_of_Z 3)) ]})))
          = Raise AttributeError
              (world_of (set_qvalue (PyList [PInt 1]) (PyList [PInt 0]) (Qc_of_Z 5)
                           (fresh {[ "bad.npy" := Pickled (OScalar (Qc_of_Z 3)) ]}))))
    as Hload by (vm_compute; reflexivity).
  split; [exact Hload|]. exact (load_model_raise_unchanged _ _ _ _ Hload).
Defined.

(** X14. After a successful [load_model] the agent answers from the file:
    [get_qvalue] returns the value the file holds for the pair, and 0 when it
    holds none.  The disk and the learning flag are as before. *)
Theorem load_model_reads_file (w w' : world) (filename : string) (file : npy_file) :
  files w !! filename = Some file →
  load_model filename w = Return tt w' →
  (∀ s a, result_of (get_qvalue s a w') =
          inr (default 0%Qc (file_lookup file (elements_of s) (elements_of a)))) ∧
  files w' = files w ∧ _learn (self w') = _learn (self w).
Proof.
  intros Hfile Hload. rewrite load_model_eq, Hfile in Hload.
  destruct file as [|[d|v]]; [done| |done].
  destruct (decode _) as [q|] eqn:Hq; [|done].
  injection Hload as <-. split; [|done].
  intros s a. rewrite get_qvalue_eq. cbn. f_equal.
  unfold read. by rewrite (decode_lookup2 _ _ _ _ Hq).
Qed.

Lemma load_model_reads_file_witness :
  let file := Pickled (ODict {[ [PInt 9] := IPairs [([PInt 0], Qc_of_Z 3); ([PInt 0], Qc_of_Z 4)] ]}) in
  let w := world_of (learning_mode_off (fresh {[ "m.npy" := file ]})) in
  let w' := with_qvalues {[ [PInt 9] := {[ [PInt 0] := Qc_of_Z 4 ]} ]} w in
  files w !! "m.npy" = Some file ∧
  load_model "m.npy" w = Return tt w' ∧
  (∀ s a, result_of (get_qvalue s a w') =
          inr (default 0%Qc (file_lookup file (elements_of s) (elements_of a)))) ∧
  files w' = files w ∧ _learn (self w') = _learn (self w).
Proof.
  cbn zeta.
  assert (load_model "m.npy"
            (world_of (learning_mode_off (fresh {[ "m.npy" :=
               Pickled (ODict {[ [PInt 9] :=
                 IPairs [([PInt 0], Qc_of_Z 3); ([PInt 0], Qc_of_Z 4)] ]}) ]})))
          = Return tt
              (with_qvalues {[ [PInt 9] := {[ [PInt 0] := Qc_of_Z 4 ]} ]}
                 (world_of (learning_mode_off (fresh {[ "m.npy" :=
                    Pickled (ODict {[ [PInt 9] :=
                      IPairs [([PInt 0], Qc_of_Z 3); ([PInt 0], Qc_of_Z 4)] ]}) ]})))))
    as Hload by (vm_compute; reflexivity).
  split; [vm_compute; reflexivity|]. split; [exact Hload|].
  eapply load_model_reads_file; [|exact Hload]. vm_compute; reflexivity.
Defined.

(** X15. Loading the same file twice in a row is loading it once, whether
    the load returns or raises. *)
Theorem load_model_twice (w : world) (filename : string) :
  (load_model filename;; load_model filename) w = load_model filename w.
Proof.
  rewrite bind_eq. rewrite (load_model_eq filename w).
  destruct (files w !! filename) as [[|[d|v]]|] eqn:Hfile; [done| |done|done].
  destruct (decode _) as [q|] eqn:Hq; [|done].
  rewrite load_model_eq. cbn [files with_qvalues]. by rewrite Hfile, Hq.
Qed.

(** X16. Whatever the name, [save_model] writes where a [load_model] of the
    name with the extension finds it: saving under [filename] and loading
    [npy_name filename] into a new agent gives back the table. *)
Theorem save_then_load_npy_name (w : world) (filename : string) :
  ∃ w1 w2,
    save_model filename w = Return tt w1 ∧
    load_model (npy_name filename) (fresh (files w1)) = Return tt w2 ∧
    _qvalues (self w2) = _qvalues (self w).
Proof.
  rewrite save_model_eq. eexists _, _. split; [done|].
  rewrite load_model_eq. cbn [files fresh].
  rewrite lookup_insert_eq, decode_saved. done.
Qed.

(** X17. A mapping that was loaded is saved again as the same mapping:
    after [load_model] from one file and [save_model] to another name, the
    new file holds for every pair what the old one held. *)
Theorem load_then_save_same_mapping (w w1 : world) (f g : string) (file : npy_file) :
  files w !! f = Some file →
  load_model f w = Return tt w1 →
  ∃ w2 file',
    save_model g w1 = Return tt w2 ∧
    files w2 !! npy_name g = Some file' ∧
    ∀ s a, file_lookup file' s a = file_lookup file s a.
Proof.
  intros Hfile Hload. rewrite load_model_eq, Hfile in Hload.
  destruct file as [|[d|v]]; [done| |done].
  destruct (decode _) as [q|] eqn:Hq; [|done].
  injection Hload as <-. rewrite save_model_eq. eexists _, _.
  split; [done|]. cbn [files]. rewrite lookup_insert_eq. split; [done|].
  intros s a. rewrite <-(decode_lookup2 _ _ s a Hq).
  apply symmetry, decode_lookup2, decode_saved.
Qed.

Lemma load_then_save_same_mapping_witness :
  let file := Pickled (ODict {[ [PInt 9] := IPairs [([PInt 0], Qc_of_Z 3)] ]}) in
  let w := fresh {[ "m.npy" := file ]} in
  let w1 := with_qvalues {[ [PInt 9] := {[ [PInt 0] := Qc_of_Z 3 ]} ]} w in
  files w !! "m.npy" = Some file ∧
  load_model "m.npy" w = Return tt w1 ∧
  ∃ w2 file',
    save_model "copy" w1 = Return tt w2 ∧
    files w2 !! npy_name "copy" = Some file' ∧
    ∀ s a, file_lookup file' s a = file_lookup file s a.
Proof.
  cbn zeta.
  assert (load_model "m.npy"
            (fresh {[ "m.npy" :=
               Pickled (ODict {[ [PInt 9] := IPairs [([PInt 0], Qc_of_Z 3)] ]}) ]})
          = Return tt
              (with_qvalues {[ [PInt 9] := {[ [PInt 0] := Qc_of_Z 3 ]} ]}
                 (fresh {[ "m.npy" :=
                    Pickled (ODict {[ [PInt 9] := IPairs [([PInt 0], Qc_of_Z 3)] ]}) ]})))
    as Hload by (vm_compute; reflexivity).
  split; [vm_compute; reflexivity|]. split; [exact Hload|].
  eapply load_then_save_same_mapping; [|exact Hload]. vm_compute; reflexivity.
Defined.

(** X18. A saved table can be restored later: after [save_model], any
    sequence of calls that does not save to the same file, and a
    [load_model] of that file, the agent has the table it had when saving,
    whatever was set, read or loaded in between. *)
Theorem load_model_restores_saved (cs : list call) (w : world) (filename : string) :
  forallb (λ c, negb (saves_to (npy_name filename) c)) cs = true →
  ∃ w',
    load_model (npy_name filename) (run cs (world_of (save_model filename w)))
    = Return tt w' ∧
    _qvalues (self w') = _qvalues (self w).
Proof.
  intros Hcs. rewrite load_model_eq.
  assert (files (run cs (world_of (save_model filename w))) !! npy_name filename
          = Some (Pickled (ODict (IDict <$> _qvalues (self w))))) as ->.
  { assert (∀ w1, files w1 !! npy_name filename
                  = Some (Pickled (ODict (IDict <$> _qvalues (self w)))) →
                  files (run cs w1) !! npy_name filename
                  = Some (Pickled (ODict (IDict <$> _qvalues (self w))))) as Hrun.
    { induction cs as [|c cs IH]; intros w1 Hw1; [done|].
      cbn in Hcs. apply andb_true_iff in Hcs as [Hc Hcs].
      apply negb_true_iff in Hc. cbn [run]. apply (IH Hcs).
      by rewrite do_call_file_frame. }
    apply Hrun. rewrite save_model_eq. cbn [world_of files].
    apply lookup_insert_eq. }
  rewrite decode_saved. eauto.
Qed.

Lemma load_model_restores_saved_witness :
  let w := world_of (set_qvalue (PyList [PInt 1]) (PyList [PInt 0]) (Qc_of_Z 5) (fresh ∅)) in
  let cs := [SetQvalue (PyList [PInt 1]) (PyList [PInt 0]) (Qc_of_Z 6);
             GetQvalue (PyList [PInt 2]) (PyList [PInt 0]);
             SaveModel "other.npy";
             LoadModel "missing.npy"] in
  forallb (λ c, negb (saves_to (npy_name "model") c)) cs = true ∧
  ∃ w',
    load_model (npy_name "model") (run cs (world_of (save_model "model" w)))
    = Return tt w' ∧
    _qvalues (self w') = _qvalues (self w).
Proof.
  cbn zeta. split; [reflexivity|].
  apply load_model_restores_saved. reflexivity.
Defined.

(** X20. Where every candidate action has the q value 0, as for a state
    nothing was stored for, [get_value] returns 0. *)
Theorem get_value_all_zero (w : world) (s : pyseq) (acts : list pyseq) :
  Forall (λ a, result_of (get_qvalue s a w) = inr 0%Qc) acts →
  result_of (RandomAgent.get_value s acts w) = inr 0%Qc.
Proof.
  intros Hacts. rewrite get_value_eq. cbn [result_of]. f_equal. cbn zeta.
  case_decide; [done|].
  rewrite np_sum_zeros; [apply Qcmult_0_l|].
  apply Forall_fmap, Forall_forall. intros a Ha.
  rewrite Forall_forall in Hacts. specialize (Hacts a Ha).
  rewrite get_qvalue_eq in Hacts. cbn in *. congruence.
Qed.

Lemma get_value_all_zero_witness :
  let w := world_of (set_qvalue (PyList [PInt 1]) (PyList [PInt 0]) (Qc_of_Z 5) (fresh ∅)) in
  let s := PyList [PInt 2] in
  let acts := [PyList [PInt 0]; PyList [PInt 1]; PyList [PInt 0]] in
  Forall (λ a, result_of (get_qvalue s a w) = inr 0%Qc) acts ∧
  result_of (RandomAgent.get_value s acts w) = inr 0%Qc.
Proof.
  cbn zeta.
  assert (Forall (λ a, result_of (get_qvalue (PyList [PInt 2]) a
                   (world_of (set_qvalue (PyList [PInt 1]) (PyList [PInt 0]) (Qc_of_Z 5)
                                (fresh ∅)))) = inr 0%Qc)
            [PyList [PInt 0]; PyList [PInt 1]; PyList [PInt 0]]) as Hacts.
  { repeat constructor. }
  split; [exact Hacts|]. exact (get_value_all_zero _ _ _ Hacts).
Defined.

(** X21. [get_value] reads through [get_qvalue], so it stores too: after
    the call the table holds an entry for the state and each candidate
    action, with the q value the action had. *)
Theorem get_value_stores_entries (w : world) (s : pyseq) (acts : list pyseq)
    (a : pyseq) :
  a ∈ acts →
  ∃ v,
    result_of (get_qvalue s a w) = inr v ∧
    lookup2 (_qvalues (self (world_of (RandomAgent.get_value s acts w))))
      (elements_of s) (elements_of a) = Some v.
Proof.
  intros Ha. rewrite get_qvalue_eq, get_value_eq. eexists. split; [done|].
  cbn. by apply lookup2_touch_all_elem.
Qed.

Lemma get_value_stores_entries_witness :
  let s := PyList [PInt 2] in
  let a := PyList [PInt 1] in
  let acts := [PyList [PInt 0]; a] in
  a ∈ acts ∧
  ∃ v,
    result_of (get_qvalue s a (fresh ∅)) = inr v ∧
    lookup2 (_qvalues (self (world_of (RandomAgent.get_value s acts (fresh ∅)))))
      (elements_of s) (elements_of a) = Some v.
Proof.
  cbn zeta.
  assert (PyList [PInt 1] ∈ [PyList [PInt 0]; PyList [PInt 1]]) as Ha.
  { apply list_elem_of_further, list_elem_of_here. }
  split; [exact Ha|]. exact (get_value_stores_entries _ _ _ _ Ha).
Defined.

End Extras.
